(** * Small Caps Discord: the [small_caps] transform and its Tk handlers

    A shallow embedding of [small.py].  A Python [str] is a sequence of
    Unicode code points, so strings are lists of code points ([Z]); the
    dictionary [mapa] is a finite map from strings to strings; the three
    pieces of mutable state the handlers touch (the two [StringVar]s and
    the clipboard) are threaded explicitly. *)

From Stdlib Require Import ZArith List Ascii String Lia.
From stdpp Require Import base option list gmap strings.

Local Open Scope Z_scope.

(** ** Python strings and [str.lower] *)

Module Unicode.

(** A character is a Unicode code point; a Python [str] is a list of them. *)
Definition code_point := Z.
Definition pystr := list code_point.

Definition is_code_point (c : Z) : Prop := 0 <= c <= 0x10FFFF.

(** Source files are UTF-8: [str] reads a literal the way Python does,
    turning its bytes into code points.  [pending] counts the continuation
    bytes still expected, [acc] holds the bits gathered so far. *)
Fixpoint utf8_decode (acc : Z) (pending : nat) (bs : list Z) : pystr :=
  match bs with
  | [] => []
  | b :: bs' =>
      match pending with
      | O =>
          if b <? 0x80 then b :: utf8_decode 0 0 bs'
          else if b <? 0xE0 then utf8_decode (Z.land b 0x1F) 1 bs'
          else if b <? 0xF0 then utf8_decode (Z.land b 0x0F) 2 bs'
          else utf8_decode (Z.land b 0x07) 3 bs'
      | S O => Z.lor (Z.shiftl acc 6) (Z.land b 0x3F) :: utf8_decode 0 0 bs'
      | S p => utf8_decode (Z.lor (Z.shiftl acc 6) (Z.land b 0x3F)) p bs'
      end
  end.

Definition bytes_of_string (s : string) : list Z :=
  map (fun a => Z.of_N (N_of_ascii a)) (list_ascii_of_string s).

Definition str (s : string) : pystr := utf8_decode 0 0 (bytes_of_string s).

(** One run of the lowercase table: every code point [c] with
    [first_cp <= c <= last_cp] and [c - first_cp] a multiple of [stride]
    has the one-character lowercase [c + delta]. *)
Record case_range := R { first_cp : Z; last_cp : Z; stride : Z; delta : Z }.

Definition covers (c : Z) (r : case_range) : bool :=
  (first_cp r <=? c) && (c <=? last_cp r) && ((c - first_cp r) mod stride r =? 0).

(** The lowercase mappings of the Unicode Character Database (14.0, the
    one CPython 3.11 ships), for the code points whose lowercase is a
    single other code point. *)
Definition lowercase_ranges : list case_range :=
  [ R 0x0041 0x005A 1 32; R 0x00C0 0x00D6 1 32; R 0x00D8 0x00DE 1 32
  ; R 0x0100 0x012E 2 1; R 0x0132 0x0136 2 1; R 0x0139 0x0147 2 1
  ; R 0x014A 0x0176 2 1; R 0x0178 0x0178 1 (-121); R 0x0179 0x017D 2 1
  ; R 0x0181 0x0181 1 210; R 0x0182 0x0184 2 1; R 0x0186 0x0186 1 206
  ; R 0x0187 0x0187 1 1; R 0x0189 0x018A 1 205; R 0x018B 0x018B 1 1
  ; R 0x018E 0x018E 1 79; R 0x018F 0x018F 1 202; R 0x0190 0x0190 1 203
  ; R 0x0191 0x0191 1 1; R 0x0193 0x0193 1 205; R 0x0194 0x0194 1 207
  ; R 0x0196 0x0196 1 211; R 0x0197 0x0197 1 209; R 0x0198 0x0198 1 1
  ; R 0x019C 0x019C 1 211; R 0x019D 0x019D 1 213; R 0x019F 0x019F 1 214
  ; R 0x01A0 0x01A4 2 1; R 0x01A6 0x01A6 1 218; R 0x01A7 0x01A7 1 1
  ; R 0x01A9 0x01A9 1 218; R 0x01AC 0x01AC 1 1; R 0x01AE 0x01AE 1 218
  ; R 0x01AF 0x01AF 1 1; R 0x01B1 0x01B2 1 217; R 0x01B3 0x01B5 2 1
  ; R 0x01B7 0x01B7 1 219; R 0x01B8 0x01B8 1 1; R 0x01BC 0x01BC 1 1
  ; R 0x01C4 0x01C4 1 2; R 0x01C5 0x01C5 1 1; R 0x01C7 0x01C7 1 2
  ; R 0x01C8 0x01C8 1 1; R 0x01CA 0x01CA 1 2; R 0x01CB 0x01DB 2 1
  ; R 0x01DE 0x01EE 2 1; R 0x01F1 0x01F1 1 2; R 0x01F2 0x01F4 2 1
  ; R 0x01F6 0x01F6 1 (-97); R 0x01F7 0x01F7 1 (-56); R 0x01F8 0x021E 2 1
  ; R 0x0220 0x0220 1 (-130); R 0x0222 0x0232 2 1; R 0x023A 0x023A 1 10795
  ; R 0x023B 0x023B 1 1; R 0x023D 0x023D 1 (-163); R 0x023E 0x023E 1 10792
  ; R 0x0241 0x0241 1 1; R 0x0243 0x0243 1 (-195); R 0x0244 0x0244 1 69
  ; R 0x0245 0x0245 1 71; R 0x0246 0x024E 2 1; R 0x0370 0x0372 2 1
  ; R 0x0376 0x0376 1 1; R 0x037F 0x037F 1 116; R 0x0386 0x0386 1 38
  ; R 0x0388 0x038A 1 37; R 0x038C 0x038C 1 64; R 0x038E 0x038F 1 63
  ; R 0x0391 0x03A1 1 32; R 0x03A3 0x03AB 1 32; R 0x03CF 0x03CF 1 8
  ; R 0x03D8 0x03EE 2 1; R 0x03F4 0x03F4 1 (-60); R 0x03F7 0x03F7 1 1
  ; R 0x03F9 0x03F9 1 (-7); R 0x03FA 0x03FA 1 1; R 0x03FD 0x03FF 1 (-130)
  ; R 0x0400 0x040F 1 80; R 0x0410 0x042F 1 32; R 0x0460 0x0480 2 1
  ; R 0x048A 0x04BE 2 1; R 0x04C0 0x04C0 1 15; R 0x04C1 0x04CD 2 1
  ; R 0x04D0 0x052E 2 1; R 0x0531 0x0556 1 48; R 0x10A0 0x10C5 1 7264
  ; R 0x10C7 0x10C7 1 7264; R 0x10CD 0x10CD 1 7264; R 0x13A0 0x13EF 1 38864
  ; R 0x13F0 0x13F5 1 8; R 0x1C90 0x1CBA 1 (-3008)
  ; R 0x1CBD 0x1CBF 1 (-3008); R 0x1E00 0x1E94 2 1
  ; R 0x1E9E 0x1E9E 1 (-7615); R 0x1EA0 0x1EFE 2 1; R 0x1F08 0x1F0F 1 (-8)
  ; R 0x1F18 0x1F1D 1 (-8); R 0x1F28 0x1F2F 1 (-8); R 0x1F38 0x1F3F 1 (-8)
  ; R 0x1F48 0x1F4D 1 (-8); R 0x1F59 0x1F5F 2 (-8); R 0x1F68 0x1F6F 1 (-8)
  ; R 0x1F88 0x1F8F 1 (-8); R 0x1F98 0x1F9F 1 (-8); R 0x1FA8 0x1FAF 1 (-8)
  ; R 0x1FB8 0x1FB9 1 (-8); R 0x1FBA 0x1FBB 1 (-74); R 0x1FBC 0x1FBC 1 (-9)
  ; R 0x1FC8 0x1FCB 1 (-86); R 0x1FCC 0x1FCC 1 (-9); R 0x1FD8 0x1FD9 1 (-8)
  ; R 0x1FDA 0x1FDB 1 (-100); R 0x1FE8 0x1FE9 1 (-8)
  ; R 0x1FEA 0x1FEB 1 (-112); R 0x1FEC 0x1FEC 1 (-7)
  ; R 0x1FF8 0x1FF9 1 (-128); R 0x1FFA 0x1FFB 1 (-126)
  ; R 0x1FFC 0x1FFC 1 (-9); R 0x2126 0x2126 1 (-7517)
  ; R 0x212A 0x212A 1 (-8383); R 0x212B 0x212B 1 (-8262)
  ; R 0x2132 0x2132 1 28; R 0x2160 0x216F 1 16; R 0x2183 0x2183 1 1
  ; R 0x24B6 0x24CF 1 26; R 0x2C00 0x2C2F 1 48; R 0x2C60 0x2C60 1 1
  ; R 0x2C62 0x2C62 1 (-10743); R 0x2C63 0x2C63 1 (-3814)
  ; R 0x2C64 0x2C64 1 (-10727); R 0x2C67 0x2C6B 2 1
  ; R 0x2C6D 0x2C6D 1 (-10780); R 0x2C6E 0x2C6E 1 (-10749)
  ; R 0x2C6F 0x2C6F 1 (-10783); R 0x2C70 0x2C70 1 (-10782)
  ; R 0x2C72 0x2C72 1 1; R 0x2C75 0x2C75 1 1; R 0x2C7E 0x2C7F 1 (-10815)
  ; R 0x2C80 0x2CE2 2 1; R 0x2CEB 0x2CED 2 1; R 0x2CF2 0x2CF2 1 1
  ; R 0xA640 0xA66C 2 1; R 0xA680 0xA69A 2 1; R 0xA722 0xA72E 2 1
  ; R 0xA732 0xA76E 2 1; R 0xA779 0xA77B 2 1; R 0xA77D 0xA77D 1 (-35332)
  ; R 0xA77E 0xA786 2 1; R 0xA78B 0xA78B 1 1; R 0xA78D 0xA78D 1 (-42280)
  ; R 0xA790 0xA792 2 1; R 0xA796 0xA7A8 2 1; R 0xA7AA 0xA7AA 1 (-42308)
  ; R 0xA7AB 0xA7AB 1 (-42319); R 0xA7AC 0xA7AC 1 (-42315)
  ; R 0xA7AD 0xA7AD 1 (-42305); R 0xA7AE 0xA7AE 1 (-42308)
  ; R 0xA7B0 0xA7B0 1 (-42258); R 0xA7B1 0xA7B1 1 (-42282)
  ; R 0xA7B2 0xA7B2 1 (-42261); R 0xA7B3 0xA7B3 1 928; R 0xA7B4 0xA7C2 2 1
  ; R 0xA7C4 0xA7C4 1 (-48); R 0xA7C5 0xA7C5 1 (-42307)
  ; R 0xA7C6 0xA7C6 1 (-35384); R 0xA7C7 0xA7C9 2 1; R 0xA7D0 0xA7D0 1 1
  ; R 0xA7D6 0xA7D8 2 1; R 0xA7F5 0xA7F5 1 1; R 0xFF21 0xFF3A 1 32
  ; R 0x10400 0x10427 1 40; R 0x104B0 0x104D3 1 40; R 0x10570 0x1057A 1 39
  ; R 0x1057C 0x1058A 1 39; R 0x1058C 0x10592 1 39; R 0x10594 0x10595 1 39
  ; R 0x10C80 0x10CB2 1 64; R 0x118A0 0x118BF 1 32; R 0x16E40 0x16E5F 1 32
  ; R 0x1E900 0x1E921 1 34 ].

(** [to_lower_simple c]: the entry of the table for [c], or [c] itself. *)
Definition to_lower_simple (c : Z) : Z :=
  match find (covers c) lowercase_ranges with
  | Some r => c + delta r
  | None => c
  end.

(** [lower c] is [c.lower()] for the one-character string [c].  The result
    is a string: U+0130 (capital I with dot above) is the one code point
    whose lowercase has two characters, [i] followed by U+0307. *)
Definition lower (c : Z) : pystr :=
  if c =? 0x0130 then [0x0069; 0x0307] else [to_lower_simple c].

End Unicode.

Import Unicode.
Arguments str _%_string.

(** ** The transform *)

(** The dictionary literal of [small_caps], entry by entry. *)
Definition mapa_items : list (pystr * pystr) :=
  [ (str "a", str "ᴀ"); (str "b", str "ʙ"); (str "c", str "ᴄ");
    (str "d", str "ᴅ"); (str "e", str "ᴇ");
    (str "f", str "ꜰ"); (str "g", str "ɢ"); (str "h", str "ʜ");
    (str "i", str "ɪ"); (str "j", str "ᴊ");
    (str "k", str "ᴋ"); (str "l", str "ʟ"); (str "m", str "ᴍ");
    (str "n", str "ɴ"); (str "o", str "ᴏ");
    (str "p", str "ᴘ"); (str "q", str "ǫ"); (str "r", str "ʀ");
    (str "s", str "s"); (str "t", str "ᴛ");
    (str "u", str "ᴜ"); (str "v", str "ᴠ"); (str "w", str "ᴡ");
    (str "x", str "x"); (str "y", str "ʏ");
    (str "z", str "ᴢ") ].

Definition mapa : gmap pystr pystr := list_to_map mapa_items.

(** [dict_get m k d] is [m.get(k, d)]. *)
Definition dict_get (m : gmap pystr pystr) (k d : pystr) : pystr :=
  default d (m !! k).

(** [small_caps texto] is
    ["".join(mapa.get(c.lower(), c) for c in texto)]: the generator yields
    one string per character of [texto] and [join] concatenates them. *)
Definition small_caps (texto : pystr) : pystr :=
  concat (map (fun c => dict_get mapa (lower c) [c]) texto).

(** Latin letters, as code points: [a]-[z] and [A]-[Z]. *)
Definition is_lower_latin (c : Z) : Prop := 0x61 <= c <= 0x7A.
Definition is_upper_latin (c : Z) : Prop := 0x41 <= c <= 0x5A.
Definition is_latin_letter (c : Z) : Prop := is_lower_latin c \/ is_upper_latin c.

(** U+212A KELVIN SIGN, whose lowercase is the letter [k]. *)
Definition kelvin_sign : Z := 0x212A.

(** ** The window: two [StringVar]s and the clipboard *)

Module Tk.

Record state := State {
  entrada : pystr;      (* StringVar behind the "Texto normal" entry *)
  resultado : pystr;    (* StringVar behind the read-only "Resultado" entry *)
  clipboard : pystr     (* text held by the clipboard of [root] *)
}.

(** Handlers run in a state monad over [state]. *)
Definition M (A : Type) : Type := state -> A * state.

#[export] Instance M_ret : MRet M := fun A (a : A) st => (a, st).
#[export] Instance M_bind : MBind M := fun A B (k : A -> M B) (m : M A) st =>
  let '(a, st') := m st in k a st'.

Definition exec {A} (m : M A) (st : state) : state := snd (m st).

(** [StringVar.get] and [StringVar.set] on the two variables. *)
Definition entrada_get : M pystr := fun st => (entrada st, st).
Definition entrada_set (v : pystr) : M unit := fun st =>
  (tt, {| entrada := v; resultado := resultado st; clipboard := clipboard st |}).
Definition resultado_get : M pystr := fun st => (resultado st, st).
Definition resultado_set (v : pystr) : M unit := fun st =>
  (tt, {| entrada := entrada st; resultado := v; clipboard := clipboard st |}).

(** [root.clipboard_clear()] empties the clipboard;
    [root.clipboard_append(s)] adds [s] at its end. *)
Definition clipboard_clear : M unit := fun st =>
  (tt, {| entrada := entrada st; resultado := resultado st; clipboard := [] |}).
Definition clipboard_append (s : pystr) : M unit := fun st =>
  (tt, {| entrada := entrada st; resultado := resultado st;
          clipboard := clipboard st ++ s |}).

End Tk.

Import Tk.

(** The command of the "Convertir" button. *)
Definition convertir : M unit :=
  texto ← entrada_get;
  resultado_set (small_caps texto).

(** The command of the "Copiar" button. *)
Definition copiar : M unit :=
  clipboard_clear;;
  v ← resultado_get;
  clipboard_append v.

(** What can happen in the window: the user edits the input entry (the
    result entry is [readonly]) or presses one of the two buttons. *)
Inductive event :=
  | Edit_entrada (texto : pystr)
  | Click_convertir
  | Click_copiar.

Definition handle (ev : event) : M unit :=
  match ev with
  | Edit_entrada texto => entrada_set texto
  | Click_convertir => convertir
  | Click_copiar => copiar
  end.

(** State of a freshly built window: both [StringVar]s start empty, the
    clipboard holds whatever was on it. *)
Definition initial (clip : pystr) : state :=
  {| entrada := []; resultado := []; clipboard := clip |}.

(** Running a sequence of events. *)
Definition run (evs : list event) (st : state) : state :=
  fold_left (fun s ev => exec (handle ev) s) evs st.

(** The output field holds its initial empty string or something that
    [convertir] computed. *)
Definition from_convertir (v : pystr) : Prop :=
  v = [] \/ exists texto, v = small_caps texto.

(** ** Checks run over the lowercase table *)

(** The run [A]-[Z] and the one-element run of the Kelvin sign. *)
Definition is_AZ_run (r : case_range) : bool :=
  (first_cp r =? 0x41) && (last_cp r =? 0x5A) && (delta r =? 32).
Definition is_kelvin_run (r : case_range) : bool :=
  (first_cp r =? kelvin_sign) && (last_cp r =? kelvin_sign) && (delta r =? 0x6B - kelvin_sign).

(** A run whose images all lie outside [a]-[z]. *)
Definition misses_az (r : case_range) : bool :=
  (last_cp r + delta r <? 0x61) || (0x7A <? first_cp r + delta r).

(** A run that contains none of [a]-[z]. *)
Definition avoids_az (r : case_range) : bool :=
  (last_cp r <? 0x61) || (0x7A <? first_cp r).

(** ** Checks run over [mapa] *)

(** What every entry of the table looks like: the key is one lowercase
    letter, the value one code point that [small_caps] leaves alone, and
    that is either a plain lowercase letter or a glyph that is its own
    lowercase and is not a key. *)
Definition entry_shape (kv : pystr * pystr) : Prop :=
  exists x g, kv = ([x], [g]) /\ is_lower_latin x /\ is_code_point g /\
    small_caps [g] = [g] /\
    (g = x \/ (~ is_latin_letter g /\ lower g = [g] /\ mapa !! [g] = None)).

(** ** Vocabulary for further properties *)

(** The character [small_caps] emits for [c]: the first character of the
    looked-up string. *)
Definition glyph_of (c : Z) : Z :=
  match dict_get mapa (lower c) [c] with
  | g :: _ => g
  | [] => c
  end.

(** Characters [small_caps] leaves as they are: the letters [s] and [x],
    and whatever is neither a Latin letter nor the Kelvin sign. *)
Definition unchanged (c : Z) : Prop :=
  c = 0x73 \/ c = 0x78 \/ (~ is_latin_letter c /\ c <> kelvin_sign).

(** Lowercase of an ASCII letter; every other character is kept. *)
Definition ascii_lower (c : Z) : Z :=
  if (0x41 <=? c) && (c <=? 0x5A) then c + 32 else c.

(** Two characters that differ at most in the case of a Latin letter. *)
Definition same_letter (a b : Z) : Prop := ascii_lower a = ascii_lower b.

(** ASCII characters other than the capital letters. *)
Definition is_plain_ascii (c : Z) : Prop := 0 <= c <= 0x7F /\ ~ is_upper_latin c.

(** The characters that [small_caps] changes, listed. *)
Definition changing_candidates : list Z :=
  seqZ 0x41 26 ++ seqZ 0x61 26 ++ [kelvin_sign].

(** The plain ASCII characters, listed. *)
Definition plain_ascii_chars : list Z := seqZ 0 0x41 ++ seqZ 0x5B 37.

(** Kinds of events. *)
Definition is_click (ev : event) : Prop :=
  match ev with Edit_entrada _ => False | _ => True end.
Definition is_edit (ev : event) : Prop :=
  match ev with Edit_entrada _ => True | _ => False end.

(** The output field shows the transform of what the input field holds. *)
Definition in_sync (st : state) : Prop := resultado st = small_caps (entrada st).

(** ** Facts about [lower] *)

Lemma ranges_forall (P : case_range -> bool) :
  forallb P lowercase_ranges = true ->
  forall r, In r lowercase_ranges -> P r = true.
Proof. intros H r Hr. rewrite forallb_forall in H. auto. Qed.

Lemma ranges_images :
  forall r, In r lowercase_ranges ->
    (misses_az r || is_AZ_run r || is_kelvin_run r) = true.
Proof. apply ranges_forall. vm_compute. reflexivity. Qed.

Lemma ranges_avoid_az :
  forall r, In r lowercase_ranges -> avoids_az r = true.
Proof. apply ranges_forall. vm_compute. reflexivity. Qed.

Lemma covers_bounds c r : covers c r = true -> first_cp r <= c <= last_cp r.
Proof. unfold covers. rewrite !andb_true_iff. lia. Qed.

Lemma to_lower_simple_spec c :
  (to_lower_simple c = c /\ find (covers c) lowercase_ranges = None) \/
  (exists r, In r lowercase_ranges /\ covers c r = true /\
             to_lower_simple c = c + delta r).
Proof.
  unfold to_lower_simple.
  destruct (find (covers c) lowercase_ranges) as [r|] eqn:E.
  - right. apply find_some in E as [Hin Hc]. eauto.
  - left. auto.
Qed.

(** Lowercase letters are their own lowercase. *)
Lemma lower_lower_latin c : is_lower_latin c -> lower c = [c].
Proof.
  unfold is_lower_latin, lower. intros Hc.
  destruct (Z.eqb_spec c 0x0130) as [->|_]; [lia|].
  destruct (to_lower_simple_spec c) as [[-> _]|(r & Hin & Hcov & _)]; [reflexivity|].
  apply covers_bounds in Hcov. apply ranges_avoid_az in Hin.
  unfold avoids_az in Hin. lia.
Qed.

(** Capital letters go to the letter 32 code points further. *)
Lemma lower_upper_latin c : is_upper_latin c -> lower c = [c + 32].
Proof.
  unfold is_upper_latin, lower. intros Hc.
  destruct (Z.eqb_spec c 0x0130) as [->|_]; [lia|].
  unfold to_lower_simple.
  replace lowercase_ranges with (R 0x41 0x5A 1 32 :: tail lowercase_ranges)
    by reflexivity.
  cbn [find]. unfold covers at 1. cbn [first_cp last_cp stride delta].
  rewrite Z.mod_1_r.
  destruct (Z.leb_spec 0x41 c); [|lia].
  destruct (Z.leb_spec c 0x5A); [|lia].
  reflexivity.
Qed.

Lemma lower_kelvin : lower kelvin_sign = [0x6B].
Proof. vm_compute. reflexivity. Qed.

(** The only code points whose lowercase is one of [a]-[z] are the Latin
    letters and the Kelvin sign. *)
Lemma lower_into_az c k :
  lower c = [k] -> is_lower_latin k ->
  c = k \/ (is_upper_latin c /\ k = c + 32) \/ (c = kelvin_sign /\ k = 0x6B).
Proof.
  unfold lower, is_lower_latin, is_upper_latin, kelvin_sign. intros Hl Hk.
  destruct (Z.eqb_spec c 0x0130) as [->|_]; [discriminate|].
  injection Hl as Hl.
  destruct (to_lower_simple_spec c) as [[E _]|(r & Hin & Hcov & E)]; [lia|].
  apply covers_bounds in Hcov. apply ranges_images in Hin.
  unfold misses_az, is_AZ_run, is_kelvin_run, kelvin_sign in Hin. lia.
Qed.

(** ** Facts about [mapa] *)

(** Literals are read as code points: one, two and three bytes. *)
Lemma str_code_points :
  str "" = [] /\ str "aZ!" = [0x61; 0x5A; 0x21] /\
  str "ǫ" = [0x01EB] /\ str "ᴀꜰ" = [0x1D00; 0xA730].
Proof. repeat split; vm_compute; reflexivity. Qed.

(** The table, code point by code point. *)
Lemma mapa_items_code_points :
  mapa_items =
  [ ([0x61], [0x1D00]); ([0x62], [0x0299]); ([0x63], [0x1D04]);
    ([0x64], [0x1D05]); ([0x65], [0x1D07]); ([0x66], [0xA730]);
    ([0x67], [0x0262]); ([0x68], [0x029C]); ([0x69], [0x026A]);
    ([0x6A], [0x1D0A]); ([0x6B], [0x1D0B]); ([0x6C], [0x029F]);
    ([0x6D], [0x1D0D]); ([0x6E], [0x0274]); ([0x6F], [0x1D0F]);
    ([0x70], [0x1D18]); ([0x71], [0x01EB]); ([0x72], [0x0280]);
    ([0x73], [0x73]); ([0x74], [0x1D1B]); ([0x75], [0x1D1C]);
    ([0x76], [0x1D20]); ([0x77], [0x1D21]); ([0x78], [0x78]);
    ([0x79], [0x028F]); ([0x7A], [0x1D22]) ].
Proof. vm_compute. reflexivity. Qed.

Lemma mapa_keys_NoDup : NoDup (mapa_items.*1).
Proof. apply (bool_decide_unpack _). vm_compute. exact I. Qed.

Lemma mapa_lookup k v : mapa !! k = Some v <-> (k, v) ∈ mapa_items.
Proof.
  unfold mapa. split.
  - apply elem_of_list_to_map_2.
  - apply elem_of_list_to_map_1, mapa_keys_NoDup.
Qed.

Lemma small_caps_char c : small_caps [c] = dict_get mapa (lower c) [c].
Proof. unfold small_caps. cbn [map concat]. apply app_nil_r. Qed.

Lemma small_caps_cons c s : small_caps (c :: s) = small_caps [c] ++ small_caps s.
Proof. rewrite small_caps_char. reflexivity. Qed.

Lemma small_caps_app s t : small_caps (s ++ t) = small_caps s ++ small_caps t.
Proof. unfold small_caps. rewrite map_app. apply concat_app. Qed.

Lemma mapa_items_shape : Forall entry_shape mapa_items.
Proof.
  unfold mapa_items.
  repeat (apply Forall_cons; split;
    [ eexists _, _; split; [vm_compute; reflexivity|];
      unfold is_latin_letter, is_lower_latin, is_upper_latin, is_code_point;
      split; [lia|]; split; [lia|]; split; [vm_compute; reflexivity|];
      first [ left; reflexivity
            | right; split; [lia|]; split; vm_compute; reflexivity ]
    | ]).
  apply Forall_nil_2.
Qed.

Lemma mapa_entry k v : mapa !! k = Some v -> entry_shape (k, v).
Proof.
  intros H. apply mapa_lookup in H.
  revert H. apply (proj1 (Forall_forall _ _) mapa_items_shape).
Qed.

(** Every lowercase letter is a key. *)
Lemma mapa_lower_latin x : is_lower_latin x -> is_Some (mapa !! [x]).
Proof.
  unfold is_lower_latin. intros Hx.
  assert (Hin : x ∈ seqZ 0x61 26) by (apply elem_of_seqZ; lia).
  clear Hx. revert x Hin. apply Forall_forall.
  apply (bool_decide_unpack _). vm_compute. exact I.
Qed.

(** Lookup after lowercasing, by kind of character. *)
Lemma mapa_lower_None c :
  ~ is_latin_letter c -> c <> kelvin_sign -> mapa !! lower c = None.
Proof.
  intros Hc Hk. destruct (mapa !! lower c) as [v|] eqn:E; [|reflexivity].
  apply mapa_entry in E as (x & g & Heq & Hx & _).
  injection Heq as Hl _.
  destruct (lower_into_az c x Hl Hx) as [->|[[Hu _]|[-> _]]].
  - destruct Hc. left. exact Hx.
  - destruct Hc. right. exact Hu.
  - destruct Hk. reflexivity.
Qed.

Lemma dict_get_Some k d v : mapa !! k = Some v -> dict_get mapa k d = v.
Proof. unfold dict_get. intros ->. reflexivity. Qed.

Lemma dict_get_None k d : mapa !! k = None -> dict_get mapa k d = d.
Proof. unfold dict_get. intros ->. reflexivity. Qed.

(** A letter comes out as the table's value for its lowercase. *)
Lemma small_caps_lookup c l :
  lower c = [l] -> is_lower_latin l -> mapa !! [l] = Some (small_caps [c]).
Proof.
  intros Hl Hlat. destruct (mapa_lower_latin l Hlat) as [v Hv].
  rewrite small_caps_char, Hl, (dict_get_Some _ _ _ Hv). exact Hv.
Qed.

(** One character in, one character out. *)
Lemma small_caps_char_length c : length (small_caps [c]) = 1%nat.
Proof.
  rewrite small_caps_char. unfold dict_get.
  destruct (mapa !! lower c) as [v|] eqn:E; [|reflexivity].
  apply mapa_entry in E as (x & g & Heq & _). injection Heq as _ ->. reflexivity.
Qed.

(** ** The transform on single characters *)

(** C1: for every Latin letter [c], lowercase or capital, [c.lower()] is
    the one-letter string of its lowercase letter [l], that string is a key
    of the table, and [small_caps] of [c] is exactly the value stored under
    it, whatever the case of [c]. *)
Theorem small_caps_latin_letter (c : Z) :
  is_latin_letter c ->
  exists l, is_lower_latin l /\ (c = l \/ c = l - 32) /\ lower c = [l] /\
            mapa !! [l] = Some (small_caps [c]).
Proof.
  intros [Hlo|Hup].
  - exists c. pose proof (lower_lower_latin c Hlo) as Hl.
    split; [exact Hlo|]. split; [left; reflexivity|]. split; [exact Hl|].
    apply small_caps_lookup; assumption.
  - exists (c + 32). pose proof (lower_upper_latin c Hup) as Hl.
    assert (Hlo : is_lower_latin (c + 32))
      by (unfold is_lower_latin, is_upper_latin in *; lia).
    split; [exact Hlo|]. split; [right; lia|]. split; [exact Hl|].
    apply small_caps_lookup; assumption.
Qed.

Lemma small_caps_latin_letter_witness :
  is_latin_letter 0x48 /\
  exists l, is_lower_latin l /\ (0x48 = l \/ 0x48 = l - 32) /\ lower 0x48 = [l] /\
            mapa !! [l] = Some (small_caps [0x48]).
Proof.
  assert (H : is_latin_letter 0x48) by (right; unfold is_upper_latin; lia).
  split; [exact H | exact (small_caps_latin_letter 0x48 H)].
Defined.

(** C2, as the spec has it, fails at U+212A KELVIN SIGN: it is none of
    [a]-[z], [A]-[Z], its lowercase is the letter [k], and so it comes out
    as the small capital K. *)
Lemma kelvin_sign_not_passed_through :
  is_code_point kelvin_sign /\ ~ is_latin_letter kelvin_sign /\
  small_caps [kelvin_sign] = str "ᴋ" /\ small_caps [kelvin_sign] <> [kelvin_sign].
Proof.
  unfold is_code_point, is_latin_letter, is_lower_latin, is_upper_latin, kelvin_sign.
  split; [lia|]. split; [lia|]. split; [vm_compute; reflexivity|].
  vm_compute. discriminate.
Qed.

(** C2 (amended): every character that is neither a Latin letter nor the
    Kelvin sign passes through unchanged. *)
Theorem small_caps_passthrough (c : Z) :
  ~ is_latin_letter c -> c <> kelvin_sign -> small_caps [c] = [c].
Proof.
  intros Hc Hk. rewrite small_caps_char.
  apply dict_get_None, mapa_lower_None; assumption.
Qed.

Lemma small_caps_passthrough_witness :
  ~ is_latin_letter 0xE9 /\ 0xE9 <> kelvin_sign /\ small_caps [0xE9] = [0xE9].
Proof.
  assert (H1 : ~ is_latin_letter 0xE9)
    by (unfold is_latin_letter, is_lower_latin, is_upper_latin; lia).
  assert (H2 : 0xE9 <> kelvin_sign) by (unfold kelvin_sign; lia).
  split; [exact H1|]. split; [exact H2|]. exact (small_caps_passthrough 0xE9 H1 H2).
Defined.

(** ** The transform on strings *)

Lemma small_caps_length_eq s : length (small_caps s) = length s.
Proof.
  induction s as [|c s IH]; [reflexivity|].
  rewrite small_caps_cons, length_app, small_caps_char_length, IH. reflexivity.
Qed.

(** C3: the output has as many characters as the input; each character
    yields exactly one, and every value stored in the table is one
    character long. *)
Theorem small_caps_length :
  (forall s : pystr, length (small_caps s) = length s) /\
  (forall c : Z, length (small_caps [c]) = 1%nat) /\
  map_Forall (fun _ v => length v = 1%nat) mapa.
Proof.
  split; [exact small_caps_length_eq|]. split; [exact small_caps_char_length|].
  intros k v Hkv. apply mapa_entry in Hkv as (x & g & Heq & _).
  injection Heq as _ ->. reflexivity.
Qed.

(** C4: the three worked examples. *)
Theorem small_caps_examples :
  small_caps (str "") = str "" /\
  small_caps (str "Hello World") = str "ʜᴇʟʟᴏ ᴡᴏʀʟᴅ" /\
  small_caps (str "abc123!") = str "ᴀʙᴄ123!".
Proof. repeat split; vm_compute; reflexivity. Qed.

(** C6: [s] and [x] are stored under themselves, so both cases of either
    letter come out as the plain lowercase ASCII letter. *)
Theorem small_caps_s_x :
  mapa !! str "s" = Some (str "s") /\ mapa !! str "x" = Some (str "x") /\
  small_caps (str "s") = [0x73] /\ small_caps (str "S") = [0x73] /\
  small_caps (str "x") = [0x78] /\ small_caps (str "X") = [0x78].
Proof. repeat split; vm_compute; reflexivity. Qed.

(** C7: [small_caps] distributes over concatenation. *)
Theorem small_caps_concat (s t : pystr) :
  small_caps (s ++ t) = small_caps s ++ small_caps t.
Proof. apply small_caps_app. Qed.

Lemma small_caps_char_code_point c :
  is_code_point c -> Forall is_code_point (small_caps [c]).
Proof.
  intros Hc. rewrite small_caps_char. unfold dict_get.
  destruct (mapa !! lower c) as [v|] eqn:E.
  - apply mapa_entry in E as (x & g & Heq & _ & Hg & _).
    injection Heq as _ ->. apply Forall_singleton. exact Hg.
  - apply Forall_singleton. exact Hc.
Qed.

Lemma small_caps_code_points s :
  Forall is_code_point s -> Forall is_code_point (small_caps s).
Proof.
  induction 1 as [|c s Hc _ IH]; [apply Forall_nil_2|].
  rewrite small_caps_cons. apply Forall_app. split; [|exact IH].
  apply small_caps_char_code_point, Hc.
Qed.

(** C8: [small_caps] is total and pure: every string, the empty one
    included, has a result, which is again a string of Unicode code
    points; the result is a function of the argument alone. *)
Theorem small_caps_total_pure :
  (forall texto : pystr, exists r : pystr,
      small_caps texto = r /\
      (Forall is_code_point texto -> Forall is_code_point r)) /\
  small_caps [] = [] /\
  (forall s1 s2 : pystr, s1 = s2 -> small_caps s1 = small_caps s2).
Proof.
  split; [|split].
  - intros texto. exists (small_caps texto). split; [reflexivity|].
    apply small_caps_code_points.
  - reflexivity.
  - intros s1 s2 ->. reflexivity.
Qed.

Lemma small_caps_total_pure_witness :
  Forall is_code_point (str "Ab1") /\ str "Ab1" = [0x41; 0x62; 0x31] /\
  (exists r : pystr, small_caps (str "Ab1") = r /\ Forall is_code_point r) /\
  small_caps (str "Ab1") = small_caps [0x41; 0x62; 0x31].
Proof.
  assert (Heq : str "Ab1" = [0x41; 0x62; 0x31]) by (vm_compute; reflexivity).
  assert (Hcp : Forall is_code_point (str "Ab1")).
  { rewrite Heq. repeat (apply Forall_cons_2; [unfold is_code_point; lia|]).
    apply Forall_nil_2. }
  destruct small_caps_total_pure as (Htot & _ & Hdet).
  split; [exact Hcp|]. split; [exact Heq|]. split.
  - destruct (Htot (str "Ab1")) as (r & Hr & Hok). exists r. auto.
  - apply Hdet, Heq.
Defined.

(** What [small_caps] gives for one character is a fixed point. *)
Lemma small_caps_char_idem c : small_caps (small_caps [c]) = small_caps [c].
Proof.
  rewrite (small_caps_char c).
  destruct (mapa !! lower c) as [v|] eqn:E.
  - rewrite (dict_get_Some _ _ _ E).
    apply mapa_entry in E as (x & g & Heq & _ & _ & Hfix & _).
    injection Heq as _ ->. exact Hfix.
  - rewrite (dict_get_None _ _ E), small_caps_char. apply dict_get_None, E.
Qed.

Lemma small_caps_idem s : small_caps (small_caps s) = small_caps s.
Proof.
  induction s as [|c s IH]; [reflexivity|].
  rewrite small_caps_cons, small_caps_app, small_caps_char_idem, IH. reflexivity.
Qed.

(** C10: [small_caps] is idempotent; no glyph of the table other than the
    plain letters it keeps is a key, and neither is its lowercase. *)
Theorem small_caps_idempotent :
  (forall s : pystr, small_caps (small_caps s) = small_caps s) /\
  (forall (k : pystr) (g : Z), mapa !! k = Some [g] -> ~ is_latin_letter g ->
     mapa !! [g] = None /\ mapa !! lower g = None).
Proof.
  split; [exact small_caps_idem|].
  intros k g Hk Hg. apply mapa_entry in Hk as (x & g' & Heq & Hx & _ & _ & Hcase).
  injection Heq as _ <-.
  destruct Hcase as [->|(_ & Hl & Hn)].
  - destruct Hg. left. exact Hx.
  - rewrite Hl. auto.
Qed.

Lemma small_caps_idempotent_witness :
  mapa !! str "k" = Some [0x1D0B] /\ ~ is_latin_letter 0x1D0B /\
  mapa !! [0x1D0B] = None /\ mapa !! lower 0x1D0B = None /\
  small_caps (small_caps (str "Kk")) = small_caps (str "Kk").
Proof.
  assert (H1 : mapa !! str "k" = Some [0x1D0B]) by (vm_compute; reflexivity).
  assert (H2 : ~ is_latin_letter 0x1D0B)
    by (unfold is_latin_letter, is_lower_latin, is_upper_latin; lia).
  destruct small_caps_idempotent as (Hidem & Hkeys).
  destruct (Hkeys _ _ H1 H2) as [H3 H4].
  split; [exact H1|]. split; [exact H2|]. split; [exact H3|]. split; [exact H4|].
  apply Hidem.
Defined.

(** ** The two buttons *)

(** C5: after "Copiar" the clipboard holds exactly the result string,
    whatever it held before: the handler is a clear followed by an append
    of the current result, and it leaves both fields alone. *)
Theorem copiar_clipboard :
  (forall st : state, clipboard (exec copiar st) = resultado st) /\
  (forall st : state,
      exec copiar st = exec (clipboard_append (resultado st)) (exec clipboard_clear st)) /\
  (forall st : state, entrada (exec copiar st) = entrada st /\
                      resultado (exec copiar st) = resultado st) /\
  (forall e old : pystr,
      clipboard (exec copiar (State e (str "ᴀʙᴄ") old)) = str "ᴀʙᴄ").
Proof.
  split; [|split; [|split]].
  - intros [e r old]. reflexivity.
  - intros [e r old]. reflexivity.
  - intros [e r old]. split; reflexivity.
  - intros e old. reflexivity.
Qed.

(** The output field after one event. *)
Lemma handle_resultado ev st :
  resultado (exec (handle ev) st) =
  match ev with
  | Click_convertir => small_caps (entrada st)
  | Edit_entrada _ | Click_copiar => resultado st
  end.
Proof. destruct ev, st; reflexivity. Qed.

Lemma from_convertir_handle ev st :
  from_convertir (resultado st) -> from_convertir (resultado (exec (handle ev) st)).
Proof.
  intros H. rewrite handle_resultado. destruct ev; try exact H.
  right. exists (entrada st). reflexivity.
Qed.

Lemma from_convertir_run evs :
  forall st, from_convertir (resultado st) -> from_convertir (resultado (run evs st)).
Proof.
  unfold run. induction evs as [|ev evs IH]; intros st H; [exact H|].
  cbn [fold_left]. apply IH, from_convertir_handle, H.
Qed.

(** C9: "Convertir" writes [small_caps] of the input field to the output
    field and touches nothing else; no other event changes the output
    field, so whatever the user does the output field is empty or a value
    that "Convertir" put there. *)
Theorem convertir_effect :
  (forall st : state,
      exec convertir st =
      {| entrada := entrada st; resultado := small_caps (entrada st);
         clipboard := clipboard st |}) /\
  (forall (ev : event) (st : state),
      resultado (exec (handle ev) st) =
      match ev with
      | Click_convertir => small_caps (entrada st)
      | Edit_entrada _ | Click_copiar => resultado st
      end) /\
  (forall (evs : list event) (clip : pystr),
      from_convertir (resultado (run evs (initial clip)))).
Proof.
  split; [|split].
  - intros [e r old]. reflexivity.
  - exact handle_resultado.
  - intros evs clip. apply from_convertir_run. left. reflexivity.
Qed.

(** ** Further properties of [small_caps] *)

Lemma small_caps_char_glyph c : small_caps [c] = [glyph_of c].
Proof.
  rewrite small_caps_char. unfold glyph_of, dict_get.
  destruct (mapa !! lower c) as [v|] eqn:E; [|reflexivity].
  apply mapa_entry in E as (x & g & Heq & _). injection Heq as _ ->. reflexivity.
Qed.

(** [small_caps] is a character-by-character map. *)
Lemma small_caps_fmap s : small_caps s = glyph_of <$> s.
Proof.
  induction s as [|c s IH]; [reflexivity|].
  rewrite small_caps_cons, small_caps_char_glyph, IH. reflexivity.
Qed.

Lemma changing_candidates_spec c :
  is_latin_letter c \/ c = kelvin_sign -> c ∈ changing_candidates.
Proof.
  unfold changing_candidates, is_latin_letter, is_lower_latin, is_upper_latin, kelvin_sign.
  intros H. rewrite !elem_of_app, !elem_of_seqZ, list_elem_of_singleton. lia.
Qed.

Lemma changing_candidates_fixed :
  Forall (fun c => small_caps [c] = [c] -> c = 0x73 \/ c = 0x78) changing_candidates.
Proof. apply (bool_decide_unpack _). vm_compute. exact I. Qed.

Lemma small_caps_char_fixed c : small_caps [c] = [c] <-> unchanged c.
Proof.
  unfold unchanged. split.
  - intros Hfix.
    assert (Hcase : (is_latin_letter c \/ c = kelvin_sign) \/
                    (~ is_latin_letter c /\ c <> kelvin_sign))
      by (unfold is_latin_letter, is_lower_latin, is_upper_latin, kelvin_sign; lia).
    destruct Hcase as [Hl|Hn]; [|auto].
    apply changing_candidates_spec in Hl.
    pose proof (proj1 (Forall_forall _ _) changing_candidates_fixed c Hl Hfix) as H.
    tauto.
  - intros [->|[->|[Hl Hk]]]; [vm_compute; reflexivity|vm_compute; reflexivity|].
    rewrite small_caps_char. apply dict_get_None, mapa_lower_None; assumption.
Qed.

Lemma glyph_of_fixed c : glyph_of c = c <-> unchanged c.
Proof.
  rewrite <- small_caps_char_fixed, small_caps_char_glyph.
  split; [intros ->; reflexivity | intros H; injection H; auto].
Qed.

Lemma glyph_of_unchanged c : unchanged (glyph_of c).
Proof.
  apply small_caps_char_fixed. rewrite <- small_caps_char_glyph.
  apply small_caps_char_idem.
Qed.

(** X1: [small_caps] returns its argument exactly when the argument has
    no character it changes: no Latin letter other than lowercase [s] and
    [x], and no Kelvin sign. *)
Theorem small_caps_fixed_iff (s : pystr) :
  small_caps s = s <-> Forall unchanged s.
Proof.
  rewrite small_caps_fmap. induction s as [|c s IH].
  - split; [intros _; apply Forall_nil_2 | reflexivity].
  - rewrite fmap_cons, Forall_cons, <- IH, <- glyph_of_fixed. split.
    + intros H. injection H as Hc Hs. auto.
    + intros [Hc Hs]. rewrite Hc, Hs. reflexivity.
Qed.

(** X2: whatever the input, the output holds only characters that
    [small_caps] leaves alone: no capital Latin letter, no Kelvin sign, and
    no lowercase Latin letter other than [s] and [x]. *)
Theorem small_caps_output_unchanged (s : pystr) :
  Forall unchanged (small_caps s).
Proof.
  rewrite small_caps_fmap. apply Forall_fmap, Forall_true. exact glyph_of_unchanged.
Qed.

Lemma small_caps_char_ascii_lower c : small_caps [ascii_lower c] = small_caps [c].
Proof.
  unfold ascii_lower.
  destruct (Z.leb_spec 0x41 c); [|reflexivity].
  destruct (Z.leb_spec c 0x5A); [|reflexivity]. cbn [andb].
  assert (Hup : is_upper_latin c) by (unfold is_upper_latin; lia).
  assert (Hlo : is_lower_latin (c + 32)) by (unfold is_lower_latin; lia).
  rewrite !small_caps_char, (lower_upper_latin c Hup), (lower_lower_latin _ Hlo).
  destruct (mapa_lower_latin _ Hlo) as [v Hv].
  rewrite !(dict_get_Some _ _ _ Hv). reflexivity.
Qed.

(** X3: strings that differ only in the case of Latin letters have the
    same image. *)
Theorem small_caps_ignores_case (s t : pystr) :
  Forall2 same_letter s t -> small_caps s = small_caps t.
Proof.
  induction 1 as [|a b s t Hab _ IH]; [reflexivity|].
  rewrite (small_caps_cons a), (small_caps_cons b), IH. f_equal.
  transitivity (small_caps [ascii_lower a]).
  - symmetry. apply small_caps_char_ascii_lower.
  - unfold same_letter in Hab. rewrite Hab. apply small_caps_char_ascii_lower.
Qed.

Lemma small_caps_ignores_case_witness :
  Forall2 same_letter [0x48; 0x69; 0x21] [0x68; 0x49; 0x21] /\
  small_caps [0x48; 0x69; 0x21] = small_caps [0x68; 0x49; 0x21].
Proof.
  assert (H : Forall2 same_letter [0x48; 0x69; 0x21] [0x68; 0x49; 0x21]).
  { repeat (constructor; [reflexivity|]). constructor. }
  split; [exact H | exact (small_caps_ignores_case _ _ H)].
Defined.

Lemma NoDup_fmap_inj {A B : Type} (f : A -> B) (l : list A) :
  NoDup (f <$> l) -> forall x y, x ∈ l -> y ∈ l -> f x = f y -> x = y.
Proof.
  induction l as [|a l IH]; intros Hnd x y Hx Hy Hxy.
  - inversion Hx.
  - rewrite fmap_cons in Hnd. apply NoDup_cons in Hnd as [Hnotin Hnd].
    apply elem_of_cons in Hx as [->|Hx]; apply elem_of_cons in Hy as [->|Hy].
    + reflexivity.
    + destruct Hnotin. rewrite Hxy. apply list_elem_of_fmap_2. exact Hy.
    + destruct Hnotin. rewrite <- Hxy. apply list_elem_of_fmap_2. exact Hx.
    + apply IH; assumption.
Qed.

Lemma plain_ascii_chars_spec c : is_plain_ascii c -> c ∈ plain_ascii_chars.
Proof.
  unfold plain_ascii_chars, is_plain_ascii, is_upper_latin. intros H.
  rewrite elem_of_app, !elem_of_seqZ. lia.
Qed.

Lemma plain_ascii_glyphs_NoDup : NoDup (glyph_of <$> plain_ascii_chars).
Proof. apply (bool_decide_unpack _). vm_compute. exact I. Qed.

Lemma glyph_of_plain_inj a b :
  is_plain_ascii a -> is_plain_ascii b -> glyph_of a = glyph_of b -> a = b.
Proof.
  intros Ha Hb. apply (NoDup_fmap_inj _ _ plain_ascii_glyphs_NoDup);
    apply plain_ascii_chars_spec; assumption.
Qed.

(** X4: on ASCII text without capital letters the transform loses
    nothing: two such strings with the same image are equal. *)
Theorem small_caps_plain_injective (s t : pystr) :
  Forall is_plain_ascii s -> Forall is_plain_ascii t ->
  small_caps s = small_caps t -> s = t.
Proof.
  rewrite !small_caps_fmap. intros Hs. revert t.
  induction Hs as [|a s Ha _ IH]; intros [|b t] Ht Heq; try discriminate.
  - reflexivity.
  - apply Forall_cons in Ht as [Hb Ht]. rewrite !fmap_cons in Heq.
    injection Heq as Hab Heq.
    rewrite (glyph_of_plain_inj a b Ha Hb Hab), (IH t Ht Heq). reflexivity.
Qed.

Lemma small_caps_plain_injective_witness :
  Forall is_plain_ascii [0x61; 0x31] /\ Forall is_plain_ascii (str "a1") /\
  small_caps [0x61; 0x31] = small_caps (str "a1") /\ [0x61; 0x31] = str "a1".
Proof.
  assert (H : Forall is_plain_ascii [0x61; 0x31]).
  { repeat (apply Forall_cons_2;
      [unfold is_plain_ascii, is_upper_latin; lia|]). apply Forall_nil_2. }
  assert (H' : Forall is_plain_ascii (str "a1")) by exact H.
  assert (Heq : small_caps [0x61; 0x31] = small_caps (str "a1")) by reflexivity.
  split; [exact H|]. split; [exact H'|]. split; [exact Heq|].
  exact (small_caps_plain_injective _ _ H H' Heq).
Defined.

(** X5: the transform commutes with slicing and with reversal:
    [small_caps(s[:n]) == small_caps(s)[:n]], likewise for [s[n:]] and
    [s[::-1]]. *)
Theorem small_caps_slices (n : nat) (s : pystr) :
  small_caps (take n s) = take n (small_caps s) /\
  small_caps (drop n s) = drop n (small_caps s) /\
  small_caps (reverse s) = reverse (small_caps s).
Proof.
  rewrite !small_caps_fmap, fmap_take, fmap_drop, fmap_reverse. auto.
Qed.


(** ** Further properties of the handlers *)

Lemma exec_convertir st :
  exec convertir st =
  {| entrada := entrada st; resultado := small_caps (entrada st);
     clipboard := clipboard st |}.
Proof. destruct st. reflexivity. Qed.

Lemma exec_copiar st :
  exec copiar st =
  {| entrada := entrada st; resultado := resultado st; clipboard := resultado st |}.
Proof. destruct st. reflexivity. Qed.

Lemma exec_edit texto st :
  exec (entrada_set texto) st =
  {| entrada := texto; resultado := resultado st; clipboard := clipboard st |}.
Proof. destruct st. reflexivity. Qed.

Lemma run_cons ev evs st : run (ev :: evs) st = run evs (exec (handle ev) st).
Proof. reflexivity. Qed.

Lemma run_app evs1 evs2 st : run (evs1 ++ evs2) st = run evs2 (run evs1 st).
Proof. unfold run. apply fold_left_app. Qed.

(** X7: pressing a button again changes nothing: any number of presses
    of "Copiar" (or of "Convertir") in a row leaves the window as one press
    does; in particular the clipboard does not grow. *)
Theorem button_repeat (n : nat) (st : state) :
  run (replicate (S n) Click_copiar) st = exec copiar st /\
  run (replicate (S n) Click_convertir) st = exec convertir st.
Proof.
  revert st. induction n as [|n IH]; intros st; [split; reflexivity|].
  change (replicate (S (S n)) Click_copiar)
    with (Click_copiar :: replicate (S n) Click_copiar).
  change (replicate (S (S n)) Click_convertir)
    with (Click_convertir :: replicate (S n) Click_convertir).
  rewrite !run_cons.
  destruct (IH (exec (handle Click_copiar) st)) as [-> _].
  destruct (IH (exec (handle Click_convertir) st)) as [_ ->].
  cbn [handle]. rewrite !exec_copiar, !exec_convertir. split; reflexivity.
Qed.

(** X8: after whatever happened before, "Convertir" followed by "Copiar"
    leaves the transform of the current input both in the output field and
    on the clipboard, and the input as it was. *)
Theorem convert_then_copy (evs : list event) (st : state) :
  run (evs ++ [Click_convertir; Click_copiar]) st =
  {| entrada := entrada (run evs st);
     resultado := small_caps (entrada (run evs st));
     clipboard := small_caps (entrada (run evs st)) |}.
Proof.
  rewrite run_app, !run_cons. cbn [handle run fold_left].
  rewrite exec_copiar, exec_convertir. reflexivity.
Qed.




Lemma clicks_keep_sync evs :
  forall st, Forall is_click evs -> in_sync st ->
    entrada (run evs st) = entrada st /\ in_sync (run evs st).
Proof.
  unfold in_sync. induction evs as [|ev evs IH]; intros st Hev Hs; [auto|].
  apply Forall_cons in Hev as [Hc Hev]. rewrite run_cons.
  destruct ev as [texto| |]; [destruct Hc| |]; cbn [handle].
  - destruct (IH (exec convertir st) Hev) as [He Hr];
      rewrite exec_convertir in *; cbn in *; auto.
  - destruct (IH (exec copiar st) Hev) as [He Hr];
      rewrite exec_copiar in *; cbn in *; auto.
Qed.

(** X10: once "Convertir" was pressed, the output field is the transform
    of the input field, and both stay so however often the two buttons
    are pressed, until the input is edited. *)
Theorem sync_after_convertir (evs : list event) (st : state) :
  Forall is_click evs ->
  entrada (run (Click_convertir :: evs) st) = entrada st /\
  resultado (run (Click_convertir :: evs) st) = small_caps (entrada st).
Proof.
  intros Hev. rewrite run_cons. cbn [handle].
  destruct (clicks_keep_sync evs (exec convertir st) Hev) as [He Hs].
  - unfold in_sync. rewrite exec_convertir. reflexivity.
  - unfold in_sync in Hs. rewrite Hs, He, exec_convertir. auto.
Qed.

Lemma sync_after_convertir_witness :
  Forall is_click [Click_copiar; Click_convertir] /\
  resultado (run [Click_convertir; Click_copiar; Click_convertir]
               (State (str "Ab") (str "old") [])) = small_caps (str "Ab").
Proof.
  assert (H : Forall is_click [Click_copiar; Click_convertir]).
  { repeat (apply Forall_cons_2; [exact I|]). apply Forall_nil_2. }
  split; [exact H|].
  exact (proj2 (sync_after_convertir _ (State (str "Ab") (str "old") []) H)).
Defined.

Lemma edits_keep_output evs :
  forall st, Forall is_edit evs ->
    resultado (run evs st) = resultado st /\ clipboard (run evs st) = clipboard st.
Proof.
  induction evs as [|ev evs IH]; intros st Hev; [auto|].
  apply Forall_cons in Hev as [He Hev]. rewrite run_cons.
  destruct ev as [texto| |]; try destruct He.
  cbn [handle]. destruct (IH (exec (entrada_set texto) st) Hev) as [-> ->].
  rewrite exec_edit. auto.
Qed.

(** X11: "Copiar" copies the output field, not the input: after any
    edits of the input without a "Convertir", it puts the old output on
    the clipboard (the empty string in a fresh window). *)
Theorem copy_without_convert (evs : list event) (st : state) :
  Forall is_edit evs ->
  clipboard (run (evs ++ [Click_copiar]) st) = resultado st.
Proof.
  intros Hev. rewrite run_app, run_cons. cbn [handle run fold_left].
  rewrite exec_copiar. cbn. apply (edits_keep_output evs st Hev).
Qed.

Lemma copy_without_convert_witness :
  Forall is_edit [Edit_entrada (str "abc")] /\
  clipboard (run ([Edit_entrada (str "abc")] ++ [Click_copiar]) (initial (str "kept"))) = [].
Proof.
  assert (H : Forall is_edit [Edit_entrada (str "abc")]).
  { apply Forall_cons_2; [exact I | apply Forall_nil_2]. }
  split; [exact H|].
  exact (copy_without_convert _ (initial (str "kept")) H).
Defined.
